(** * A shallow embedding of [src/main.py] (dashboard_excel_manipulation)

    The program reads a fixed-layout worksheet exported by a testing
    instrument and flattens every 9-row sample block into one row of a new
    worksheet.  This file models [ExcelConfig], [ExcelProcessor] and the parts
    of openpyxl's cell API that the processor relies on.

    Modelling conventions.
    - Python [str] values are modelled as [String.string] (ASCII characters).
    - A cell value read from the source worksheet is [None] or a [cellval]:
      a string, an integer or a boolean (spreadsheet floats and dates are not
      modelled).
    - The source worksheet is a function from 1-based (row, column) to the
      optional value of that cell.
    - The output worksheet is a function from (row, column) to
      [option outval]: [None] when openpyxl holds no cell object there,
      [Some v] when the cell exists with value [v] ([ONone] for a cell that
      was created but holds Python [None]).
    - Python exceptions are the constructors of [pyexc]; a computation that
      may raise returns a [result]. *)

From Stdlib Require Import String Ascii ZArith List Lia QArith Bool.
Import ListNotations.
Open Scope Z_scope.

(** ** Python values and exceptions *)

Inductive cellval :=
| CStr (s : string)
| CInt (z : Z)
| CBool (b : bool).

Inductive pyexc :=
| ValueError
| AttributeError
| IllegalCharacterError.

Inductive result (A : Type) :=
| Ok (a : A)
| Raise (e : pyexc).
Arguments Ok {A} a.
Arguments Raise {A} e.

(** ** String helpers (Python's [str] methods) *)

Fixpoint drop (n : nat) (s : string) : string :=
  match n, s with
  | O, _ => s
  | S n', EmptyString => EmptyString
  | S n', String _ s' => drop n' s'
  end.

Fixpoint take (n : nat) (s : string) : string :=
  match n, s with
  | O, _ => EmptyString
  | S n', EmptyString => EmptyString
  | S n', String c s' => String c (take n' s')
  end.

(** [occurs pat s]: [pat] is a substring of [s] ([pat in s]). *)
Fixpoint occurs (pat s : string) : bool :=
  prefix pat s ||
  match s with
  | EmptyString => false
  | String _ s' => occurs pat s'
  end.

(** [s.replace(old, new)] for a non-empty [old]: scan left to right and
    replace every non-overlapping occurrence.  The fuel is the length of
    the string plus one, more than the scan ever needs. *)
Fixpoint replace_fuel (fuel : nat) (old new s : string) : string :=
  match fuel with
  | O => s
  | S f =>
      match s with
      | EmptyString => EmptyString
      | String c s' =>
          if prefix old s
          then new ++ replace_fuel f old new (drop (String.length old) s)
          else String c (replace_fuel f old new s')
      end
  end.

Definition str_replace (s old new : string) : string :=
  replace_fuel (S (String.length s)) old new s.

(** [str(n)] for a Python [int]. *)
Definition digit_char (d : Z) : ascii := ascii_of_nat (48 + Z.to_nat d).

Fixpoint digits_fuel (fuel : nat) (n : Z) (acc : string) : string :=
  match fuel with
  | O => acc
  | S f =>
      let acc' := String (digit_char (n mod 10)) acc in
      if n <? 10 then acc' else digits_fuel f (n / 10) acc'
  end.

Definition str_int (z : Z) : string :=
  let m := Z.abs z in
  let ds := digits_fuel (S (Pos.size_nat (Z.to_pos m))) m EmptyString in
  if z <? 0 then String "-" ds else ds.

(** [str(value)] *)
Definition py_str (v : cellval) : string :=
  match v with
  | CStr s => s
  | CInt z => str_int z
  | CBool true => "True"
  | CBool false => "False"
  end.

(** Python truthiness ([if value:]). *)
Definition truthy (v : option cellval) : bool :=
  match v with
  | None => false
  | Some (CStr s) => negb (String.eqb s "")
  | Some (CInt z) => negb (z =? 0)
  | Some (CBool b) => b
  end.

(** [==] between two cell values ([True == 1] holds in Python). *)
Definition num_of (v : cellval) : option Z :=
  match v with
  | CStr _ => None
  | CInt z => Some z
  | CBool b => Some (if b then 1 else 0)
  end.

Definition py_eq (a b : option cellval) : bool :=
  match a, b with
  | None, None => true
  | Some (CStr x), Some (CStr y) => String.eqb x y
  | Some x, Some y =>
      match num_of x, num_of y with
      | Some m, Some n => m =? n
      | _, _ => false
      end
  | _, _ => false
  end.

(** [int(s)] for a [str] argument: surrounding whitespace is stripped, an
    optional sign is accepted, and single underscores may separate digits. *)
Definition is_space (c : ascii) : bool :=
  let n := nat_of_ascii c in
  ((9 <=? n) && (n <=? 13))%nat || ((28 <=? n) && (n <=? 32))%nat.

Fixpoint lstrip (s : string) : string :=
  match s with
  | String c s' => if is_space c then lstrip s' else s
  | EmptyString => EmptyString
  end.

Fixpoint rev_string (s : string) (acc : string) : string :=
  match s with
  | EmptyString => acc
  | String c s' => rev_string s' (String c acc)
  end.

Definition strip (s : string) : string :=
  rev_string (lstrip (rev_string (lstrip s) EmptyString)) EmptyString.

Definition digit_val (c : ascii) : option Z :=
  let n := nat_of_ascii c in
  if ((48 <=? n) && (n <=? 57))%nat then Some (Z.of_nat n - 48) else None.

Fixpoint parse_digits (s : string) (acc : Z) (prev_digit : bool) : option Z :=
  match s with
  | EmptyString => if prev_digit then Some acc else None
  | String c s' =>
      match digit_val c with
      | Some d => parse_digits s' (acc * 10 + d) true
      | None =>
          if prev_digit && Ascii.eqb c "_" then parse_digits s' acc false
          else None
      end
  end.

Definition py_int (s : string) : result Z :=
  let t := strip s in
  let parsed :=
    match t with
    | String "-" t' => option_map Z.opp (parse_digits t' 0 false)
    | String "+" t' => parse_digits t' 0 false
    | _ => parse_digits t 0 false
    end in
  match parsed with
  | Some z => Ok z
  | None => Raise ValueError
  end.

(** ** [ExcelConfig] *)

Record ExcelConfig := {
  HEADER_END_ROW : Z;
  SUBJECT_NUMBER_CELL : string;
  TRIALS_PER_SAMPLE : Z;
  START_SAMPLE : Z;
  END_SAMPLE : Z;
  OUTPUT_FILENAME : string;
  COLUMN_HEADERS : list string
}.

Definition default_config : ExcelConfig := {|
  HEADER_END_ROW := 17;
  SUBJECT_NUMBER_CELL := "A12";
  TRIALS_PER_SAMPLE := 9;
  START_SAMPLE := 2;
  END_SAMPLE := 25;
  OUTPUT_FILENAME := "edited_.xlsx";
  COLUMN_HEADERS :=
    ["Subject Number"; "trial"; "null"; "condition"; "time";
     "Relationship"; "ControlQ1 Copy 2"; "ControlQ1 Copy - 2 - 2";
     "FirstMoozleProp Copy 13"; "SecondMoozleProp Copy 13";
     "SecondMoozleProp2 Copy 13"; "ChoiceResponse Copy 2";
     "ControlQ2 Copy 2"; "ControlQ2 Copy-2 - 2"; "Choice";
     "SameChoice"; "BeliefType"; "AgeGroup"]%string
|}.

(** ** The source worksheet (read side of openpyxl) *)

Definition sheet := Z -> Z -> option cellval.

(** [worksheet.cell(row=r, column=c).value]: openpyxl refuses coordinates
    below 1 and rows past 1048576 with a [ValueError]. *)
Definition ws_cell (ws : sheet) (r c : Z) : result (option cellval) :=
  if (r <? 1) || (c <? 1) || (1048576 <? r) then Raise ValueError
  else Ok (ws r c).

(** ** The output worksheet (write side of openpyxl) *)

Inductive outval :=
| ONone
| OStr (s : string)
| OInt (z : Z).

Definition osheet := Z -> Z -> option outval.

Definition empty_osheet : osheet := fun _ _ => None.

Definition upd (ws : osheet) (r c : Z) (v : outval) : osheet :=
  fun r' c' => if (r' =? r) && (c' =? c) then Some v else ws r' c'.

(** openpyxl's [ILLEGAL_CHARACTERS_RE]: [\000-\010], [\013-\014], [\016-\037]. *)
Definition illegal_char (c : ascii) : bool :=
  let n := nat_of_ascii c in
  (n <=? 8)%nat || ((11 <=? n) && (n <=? 12))%nat || ((14 <=? n) && (n <=? 31))%nat.

Fixpoint has_illegal (s : string) : bool :=
  match s with
  | EmptyString => false
  | String c s' => illegal_char c || has_illegal s'
  end.

(** openpyxl's [check_string], applied when a [str] is stored in a cell:
    the string is cut to 32767 characters, then refused if it holds an
    illegal character. *)
Definition check_string (s : string) : result string :=
  let t := take (Z.to_nat 32767) s in
  if has_illegal t then Raise IllegalCharacterError else Ok t.

(** [worksheet.cell(row=r, column=c, value=v)]: the cell object is created
    first ([_get_cell]); the value is then bound unless it is [None].  The
    exception, if any, is returned next to the updated sheet, since the
    creation of the cell is not undone. *)
Definition cell_write (ws : osheet) (r c : Z) (v : outval) : osheet * option pyexc :=
  if (r <? 1) || (c <? 1) || (1048576 <? r) then (ws, Some ValueError)
  else
    let ws1 := match ws r c with Some _ => ws | None => upd ws r c ONone end in
    match v with
    | ONone => (ws1, None)
    | OInt z => (upd ws1 r c (OInt z), None)
    | OStr s =>
        match check_string s with
        | Ok t => (upd ws1 r c (OStr t), None)
        | Raise e => (ws1, Some e)
        end
    end.

(** ** [ExcelProcessor] *)

Section Processor.

(** [self.worksheet]: the active worksheet of the loaded workbook. *)
Variable worksheet : sheet.

Definition config := default_config.

Definition PICT_MARKUP : string := ".PICT @ :Pictures:".

(** [_clean_string] *)
Definition clean_string (value : option cellval) : string :=
  match value with
  | None => ""
  | Some v =>
      str_replace (str_replace (str_replace (py_str v) PICT_MARKUP "") "[" "") "]" ""
  end.

(** [_get_subject_number]: the subject number (Python [None] when the
    function falls off its end) and the [st.warning] messages emitted. *)
Definition SUBJECT_WARNING : string :=
  "Could not find subject number in cell A12. Using default value 0.".

Definition SUBJECT_PREFIX : string := "Subject Number: ".

Definition get_subject_number : option Z * list string :=
  (* [self.worksheet['A12'].value] *)
  let subject_cell := worksheet 12 1 in
  if truthy subject_cell then
    match subject_cell with
    | Some (CStr s) =>
        match py_int (str_replace s SUBJECT_PREFIX "") with
        | Ok n => (Some n, [])
        | Raise _ => (Some 0, [SUBJECT_WARNING])
        end
    | _ => (* [.replace] on a non-[str]: AttributeError *)
        (Some 0, [SUBJECT_WARNING])
    end
  else (None, []).

(** [_get_cell_value_safely] *)
Definition get_cell_value_safely (row col : Z) : string :=
  match ws_cell worksheet row col with
  | Raise _ => ""
  | Ok value => match value with
                | Some _ => clean_string value
                | None => ""
                end
  end.

(** [_initialize_new_workbook]: the header row. *)
Fixpoint write_headers (ws : osheet) (idx : Z) (hs : list string) : result osheet :=
  match hs with
  | [] => Ok ws
  | h :: hs' =>
      match cell_write ws 1 idx (OStr h) with
      | (ws', None) => write_headers ws' (idx + 1) hs'
      | (_, Some e) => Raise e
      end
  end.

Definition initialize_new_workbook : result osheet :=
  write_headers empty_osheet 1 (COLUMN_HEADERS config).

(** The value producers of the [mappings] dict of [_process_samples]. *)
Inductive value_func :=
| FSubject
| FRead (row_offset col : Z).

Definition mappings : list (string * (Z * value_func)) :=
  [("Subject Number", (1, FSubject));
   ("trial", (2, FRead 0 3));
   ("condition", (4, FRead 0 6));
   ("time", (5, FRead 6 12));
   ("Relationship", (6, FRead 0 5));
   ("ControlQ1 Copy 2", (7, FRead 1 14));
   ("ControlQ1 Copy - 2 - 2", (8, FRead 2 14));
   ("FirstMoozleProp Copy 13", (9, FRead 3 5));
   ("SecondMoozleProp Copy 13", (10, FRead 4 5));
   ("SecondMoozleProp2 Copy 13", (11, FRead 5 5));
   ("ChoiceResponse Copy 2", (12, FRead 6 14));
   ("ControlQ2 Copy 2", (13, FRead 7 14));
   ("ControlQ2 Copy-2 - 2", (14, FRead 8 14))]%string.

Definition start_row_of (sample_num : Z) : Z :=
  if sample_num >? 2 then (sample_num - 2) * 9 + 1 else 1.

Definition eval_value_func (subject_number : option Z) (start_row : Z)
    (f : value_func) : outval :=
  match f with
  | FSubject => match subject_number with Some n => OInt n | None => ONone end
  | FRead off col => OStr (get_cell_value_safely (start_row + off) col)
  end.

(** The inner loop: each write is tried; an exception is printed
    (recorded in the log) and the loop goes on. *)
Fixpoint apply_mappings (subject_number : option Z) (base_row start_row : Z)
    (ms : list (string * (Z * value_func))) (st : osheet * list pyexc)
    : osheet * list pyexc :=
  match ms with
  | [] => st
  | (_, (col_num, f)) :: ms' =>
      let '(ws, log) := st in
      let value := eval_value_func subject_number start_row f in
      let st' := match cell_write ws base_row col_num value with
                 | (ws', None) => (ws', log)
                 | (ws', Some e) => (ws', log ++ [e])
                 end in
      apply_mappings subject_number base_row start_row ms' st'
  end.

Definition py_range (a b : Z) : list Z :=
  map (fun i => a + Z.of_nat i) (seq 0 (Z.to_nat (b - a))).

Fixpoint process_sample_list (subject_number : option Z) (samples : list Z)
    (st : osheet * list pyexc) : osheet * list pyexc :=
  match samples with
  | [] => st
  | sample_num :: rest =>
      let base_row := sample_num in
      let start_row := start_row_of sample_num in
      process_sample_list subject_number rest
        (apply_mappings subject_number base_row start_row mappings st)
  end.

(** [_process_samples] *)
Definition process_samples (new_worksheet : osheet) (subject_number : option Z)
    : osheet * list pyexc :=
  process_sample_list subject_number
    (py_range (START_SAMPLE config) (END_SAMPLE config + 1)) (new_worksheet, []).

(** [process_worksheet]: the new worksheet, the warnings shown and the
    errors printed. *)
Definition process_worksheet : result (osheet * list string * list pyexc) :=
  match initialize_new_workbook with
  | Raise e => Raise e
  | Ok new_worksheet =>
      let '(subject_number, warnings) := get_subject_number in
      let '(ws, log) := process_samples new_worksheet subject_number in
      Ok (ws, warnings, log)
  end.

End Processor.

(** ** The static column helpers *)

Fixpoint process_choice (m_column l_column k_column : list (option cellval))
    : list (option cellval) :=
  match m_column, l_column, k_column with
  | m :: ms, l :: ls, k :: ks =>
      let r := if py_eq m (Some (CStr "j")) then l
               else if py_eq m (Some (CStr "f")) then k
               else if py_eq m (Some (CStr "d")) then Some (CStr "don't know")
               else None in
      r :: process_choice ms ls ks
  | _, _, _ => []
  end.

Fixpoint process_same_choice (p_column j_column : list (option cellval)) : list Q :=
  match p_column, j_column with
  | p :: ps, j :: js =>
      let r := if py_eq p j then 1%Q
               else if py_eq p (Some (CStr "don't know")) then (1 # 2)%Q
               else 0%Q in
      r :: process_same_choice ps js
  | _, _ => []
  end.

(** [get_belief_type] *)
Definition get_belief_type (column : list (option cellval)) : list string :=
  map (fun v => if truthy v
                then match v with
                     | Some x => let s := py_str x in
                                 String.substring (String.length s - 1) 1 s
                     | None => ""%string
                     end
                else ""%string) column.

(** What a cell holds after [cell_write] stored [v] in a fresh cell. *)
Definition stored (v : outval) : outval :=
  match v with
  | OStr s => match check_string s with Ok t => OStr t | Raise _ => ONone end
  | _ => v
  end.

(** The field table of the spec, [(field, row offset, column)], in the
    order the spec lists it. *)
Definition spec_field_table : list (string * Z * Z) :=
  [("trial", 0, 3); ("condition", 0, 6); ("Relationship", 0, 5);
   ("ControlQ1 Copy 2", 1, 14); ("ControlQ1 Copy - 2 - 2", 2, 14);
   ("FirstMoozleProp Copy 13", 3, 5); ("SecondMoozleProp Copy 13", 4, 5);
   ("SecondMoozleProp2 Copy 13", 5, 5); ("time", 6, 12);
   ("ChoiceResponse Copy 2", 6, 14); ("ControlQ2 Copy 2", 7, 14);
   ("ControlQ2 Copy-2 - 2", 8, 14)]%string.

Definition mapping_cols : list Z := map (fun m => fst (snd m)) mappings.

(** Concrete inputs used below. *)
Fixpoint repeat_char (n : nat) (c : ascii) : string :=
  match n with
  | O => EmptyString
  | S n' => String c (repeat_char n' c)
  end.

(** A source worksheet whose only non-empty cell, (1, 3), holds 32768
    letters [a]. *)
Definition long_trial_sheet : sheet :=
  fun r c => if (r =? 1) && (c =? 3)
             then Some (CStr (repeat_char (Z.to_nat 32768) "a"))
             else None.

Definition empty_sheet : sheet := fun _ _ => None.

Definition sheet_with_a12 (v : cellval) : sheet :=
  fun r c => if (r =? 12) && (c =? 1) then Some v else None.

Definition sheet_with_a1 : sheet :=
  fun r c => if (r =? 1) && (c =? 1) then Some (CStr "x") else None.

(** Every cell of the sheet holds the same integer. *)
Definition constant_int_sheet (z : Z) : sheet := fun _ _ => Some (CInt z).

Definition str_length_of (o : option outval) : Z :=
  match o with
  | Some (OStr s) => Z.of_nat (String.length s)
  | _ => -1
  end.

Definition is_created (o : option outval) : bool :=
  match o with Some _ => true | None => false end.

(** ** Lemmas on the output worksheet *)

Definition valid_coord (r c : Z) : Prop := 1 <= r <= 1048576 /\ 1 <= c.

Lemma valid_coord_false (r c : Z) :
  valid_coord r c -> ((r <? 1) || (c <? 1) || (1048576 <? r))%bool = false.
Proof.
  unfold valid_coord; intros [[H1 H2] H3].
  apply orb_false_intro; [apply orb_false_intro|]; apply Z.ltb_ge; lia.
Qed.

Lemma cell_write_other (ws : osheet) (r c r' c' : Z) (v : outval) :
  (r' <> r \/ c' <> c) -> fst (cell_write ws r c v) r' c' = ws r' c'.
Proof.
  intros Hne. unfold cell_write.
  assert (Hb : ((r' =? r) && (c' =? c))%bool = false).
  { destruct Hne as [H|H]; [apply andb_false_intro1|apply andb_false_intro2];
      apply Z.eqb_neq; exact H. }
  destruct (_ || _ || _); [reflexivity|].
  destruct (ws r c); destruct v as [|s|z]; unfold upd; simpl; rewrite ?Hb;
    try reflexivity;
    destruct (check_string s); simpl; unfold upd; rewrite ?Hb; reflexivity.
Qed.

Lemma cell_write_fresh (ws : osheet) (r c : Z) (v : outval) :
  valid_coord r c -> ws r c = None -> fst (cell_write ws r c v) r c = Some (stored v).
Proof.
  intros Hv Hn. unfold cell_write. rewrite (valid_coord_false _ _ Hv), Hn.
  assert (Hb : ((r =? r) && (c =? c))%bool = true)
    by (rewrite !Z.eqb_refl; reflexivity).
  destruct v as [|s|z]; simpl; unfold upd; rewrite ?Hb; try reflexivity.
  destruct (check_string s); simpl; unfold upd; rewrite Hb; reflexivity.
Qed.

Section Loops.
Variable src : sheet.

Lemma apply_mappings_other (subj : option Z) (base sr : Z) ms st r c :
  (r <> base \/ ~ In c (map (fun m => fst (snd m)) ms)) ->
  fst (apply_mappings src subj base sr ms st) r c = fst st r c.
Proof.
  revert st. induction ms as [|[n [col f]] ms IH]; intros [ws log] Hn; [reflexivity|].
  simpl. rewrite IH.
  - destruct (cell_write ws base col _) as [ws' [e|]] eqn:E; simpl;
      rewrite <- (cell_write_other ws base col r c (eval_value_func src subj sr f));
      try (rewrite E; reflexivity);
      (destruct Hn as [H|H]; [left; exact H|right; intro; subst; apply H; left; reflexivity]).
  - destruct Hn as [H|H]; [left; exact H|right; intro; apply H; right; assumption].
Qed.

Lemma apply_mappings_at (subj : option Z) (base sr : Z) ms st name c f :
  NoDup (map (fun m => fst (snd m)) ms) -> In (name, (c, f)) ms ->
  valid_coord base c -> fst st base c = None ->
  fst (apply_mappings src subj base sr ms st) base c
  = Some (stored (eval_value_func src subj sr f)).
Proof.
  revert st. induction ms as [|[n [col g]] ms IH]; intros [ws log] Hnd Hin Hv Hn;
    [destruct Hin|].
  simpl in Hnd. inversion Hnd as [|x l Hnotin Hnd']; subst.
  simpl in Hin |- *. destruct Hin as [Heq|Hin].
  - inversion Heq; subst.
    rewrite apply_mappings_other by (right; exact Hnotin).
    destruct (cell_write ws base c _) as [ws' e] eqn:E.
    assert (Hw : ws' base c = Some (stored (eval_value_func src subj sr f))).
    { rewrite <- (cell_write_fresh ws base c _ Hv Hn), E. reflexivity. }
    destruct e; exact Hw.
  - assert (Hc : c <> col).
    { intro; subst. apply Hnotin. apply (in_map (fun m => fst (snd m))) in Hin.
      exact Hin. }
    destruct (cell_write ws base col _) as [ws' e] eqn:E.
    assert (Hw : ws' base c = ws base c).
    { rewrite <- (cell_write_other ws base col base c
                    (eval_value_func src subj sr g)) by (right; exact Hc).
      rewrite E. reflexivity. }
    destruct e; apply IH; simpl; try assumption; rewrite Hw; exact Hn.
Qed.

End Loops.

Section SampleLoop.
Variable src : sheet.
Variable subj : option Z.

Lemma process_sample_list_other samples st r c :
  ~ In r samples ->
  fst (process_sample_list src subj samples st) r c = fst st r c.
Proof.
  revert st. induction samples as [|s rest IH]; intros st Hn; [reflexivity|].
  cbn [process_sample_list]. rewrite IH by (intro; apply Hn; right; assumption).
  apply apply_mappings_other. left. intro; subst. apply Hn. left; reflexivity.
Qed.

Lemma process_sample_list_at samples st s name c f :
  NoDup samples -> In s samples -> In (name, (c, f)) mappings ->
  valid_coord s c -> fst st s c = None ->
  fst (process_sample_list src subj samples st) s c
  = Some (stored (eval_value_func src subj (start_row_of s) f)).
Proof.
  revert st. induction samples as [|s0 rest IH]; intros st Hnd Hin Hm Hv Hn;
    [destruct Hin|].
  inversion Hnd as [|x l Hnotin Hnd']; subst.
  cbn [process_sample_list]. destruct Hin as [Heq|Hin].
  - subst. rewrite process_sample_list_other by exact Hnotin.
    eapply apply_mappings_at; eauto. vm_compute. repeat constructor; simpl; lia.
  - apply IH; auto. rewrite apply_mappings_other; [exact Hn|].
    left. intro; subst. contradiction.
Qed.

End SampleLoop.

Lemma write_headers_spec ws idx hs ws' :
  write_headers ws idx hs = Ok ws' -> 1 <= idx ->
  (forall r c, (r <> 1 \/ c < idx \/ idx + Z.of_nat (length hs) <= c) ->
               ws' r c = ws r c) /\
  (forall c, idx <= c < idx + Z.of_nat (length hs) -> ws' 1 c <> None).
Proof.
  revert ws idx. induction hs as [|h hs IH]; intros ws idx Hw Hi.
  - simpl in Hw. inversion Hw; subst. split; [reflexivity|]. simpl. lia.
  - simpl in Hw. destruct (cell_write ws 1 idx (OStr h)) as [ws1 [e|]] eqn:E;
      [discriminate|].
    destruct (IH ws1 (idx + 1) Hw ltac:(lia)) as [Hsame Hset].
    rewrite length_cons, Nat2Z.inj_succ in *.
    split.
    + intros r c Hrc. rewrite Hsame by lia.
      change ws1 with (fst (ws1, @None pyexc)). rewrite <- E.
      apply cell_write_other. lia.
    + intros c Hc. destruct (Z.eq_dec c idx) as [->|Hne].
      * rewrite Hsame by lia.
        change ws1 with (fst (ws1, @None pyexc)). rewrite <- E.
        unfold cell_write. rewrite (valid_coord_false 1 idx) by (split; lia).
        destruct (ws 1 idx) eqn:W; destruct (check_string h); cbn beta iota;
          unfold upd; rewrite ?Z.eqb_refl; simpl; rewrite ?W, ?Z.eqb_refl;
          discriminate.
      * apply Hset. lia.
Qed.

Lemma initialize_new_workbook_eq :
  initialize_new_workbook = write_headers empty_osheet 1 (COLUMN_HEADERS config).
Proof. reflexivity. Qed.

Lemma initialize_new_workbook_ok :
  exists ws0, initialize_new_workbook = Ok ws0 /\
    (forall r c, (r <> 1 \/ c < 1 \/ 19 <= c) -> ws0 r c = None) /\
    (forall c, 1 <= c <= 18 -> ws0 1 c <> None).
Proof.
  destruct initialize_new_workbook as [ws0|e] eqn:E.
  - exists ws0. split; [reflexivity|].
    rewrite initialize_new_workbook_eq in E.
    destruct (write_headers_spec empty_osheet 1 (COLUMN_HEADERS config) ws0 E
                ltac:(lia)) as [H1 H2].
    split.
    + intros r c Hrc. rewrite H1; [reflexivity|]. simpl length. lia.
    + intros c Hc. apply H2. simpl length. lia.
  - assert (Hok : match initialize_new_workbook with Ok _ => true | Raise _ => false end
                 = true) by (vm_compute; reflexivity).
    rewrite E in Hok. discriminate.
Qed.

Lemma samples_range :
  py_range (START_SAMPLE config) (END_SAMPLE config + 1)
  = [2;3;4;5;6;7;8;9;10;11;12;13;14;15;16;17;18;19;20;21;22;23;24;25].
Proof. reflexivity. Qed.

Lemma in_samples (s : Z) :
  In s (py_range (START_SAMPLE config) (END_SAMPLE config + 1)) <-> 2 <= s <= 25.
Proof.
  rewrite samples_range. split.
  - intro H. repeat (destruct H as [<-|H]; [lia|]). destruct H.
  - intro H.
    assert (Hs : s = 2 \/ s = 3 \/ s = 4 \/ s = 5 \/ s = 6 \/ s = 7 \/ s = 8 \/
                 s = 9 \/ s = 10 \/ s = 11 \/ s = 12 \/ s = 13 \/ s = 14 \/
                 s = 15 \/ s = 16 \/ s = 17 \/ s = 18 \/ s = 19 \/ s = 20 \/
                 s = 21 \/ s = 22 \/ s = 23 \/ s = 24 \/ s = 25) by lia.
    repeat (destruct Hs as [->|Hs]; [simpl; tauto|]). subst. simpl; tauto.
Qed.

Lemma samples_nodup :
  NoDup (py_range (START_SAMPLE config) (END_SAMPLE config + 1)).
Proof. rewrite samples_range. repeat constructor; simpl; lia. Qed.

Lemma mapping_cols_eq : mapping_cols = [1;2;4;5;6;7;8;9;10;11;12;13;14].
Proof. reflexivity. Qed.

(** The shape of the worksheet built by [process_worksheet], for every
    source worksheet. *)
Lemma process_worksheet_shape (src : sheet) :
  exists ws warnings log,
    process_worksheet src = Ok (ws, warnings, log) /\
    warnings = snd (get_subject_number src) /\
    (forall c, ws 1 c <> None <-> 1 <= c <= 18) /\
    (forall r c, r <> 1 -> ~ (2 <= r <= 25) -> ws r c = None) /\
    (forall s c, 2 <= s <= 25 -> ~ In c mapping_cols -> ws s c = None) /\
    (forall s name c f, 2 <= s <= 25 -> In (name, (c, f)) mappings ->
       ws s c = Some (stored (eval_value_func src (fst (get_subject_number src))
                                              (start_row_of s) f))).
Proof.
  destruct initialize_new_workbook_ok as [ws0 [E [H0none H0set]]].
  unfold process_worksheet. rewrite E.
  destruct (get_subject_number src) as [subj warnings] eqn:G.
  destruct (process_samples src ws0 subj) as [ws log] eqn:P.
  exists ws, warnings, log. split; [reflexivity|]. split; [reflexivity|].
  simpl fst.
  assert (Hws : forall r c, ws r c = fst (process_samples src ws0 subj) r c)
    by (intros; rewrite P; reflexivity).
  unfold process_samples in Hws.
  split; [|split; [|split]].
  - intros c. rewrite Hws, process_sample_list_other
      by (rewrite in_samples; lia).
    simpl fst. split.
    + intros Hc. destruct (Z_lt_le_dec c 1); [rewrite H0none in Hc by lia; congruence|].
      destruct (Z_lt_le_dec 18 c); [rewrite H0none in Hc by lia; congruence|]. lia.
    + apply H0set.
  - intros r c Hr Hnr. rewrite Hws, process_sample_list_other
      by (rewrite in_samples; exact Hnr).
    apply H0none. left; exact Hr.
  - intros s c Hs Hc.
    rewrite Hws.
    (* the loop never writes column [c] *)
    assert (Hgen : forall samples st,
               fst (process_sample_list src subj samples st) s c = fst st s c).
    { induction samples as [|s0 rest IH]; intros st; [reflexivity|].
      cbn [process_sample_list]. rewrite IH.
      apply apply_mappings_other. right. exact Hc. }
    rewrite Hgen. simpl. apply H0none. left. lia.
  - intros s name c f Hs Hm.
    rewrite Hws. eapply process_sample_list_at; eauto.
    + apply samples_nodup.
    + apply in_samples; exact Hs.
    + split; [lia|]. apply (in_map (fun m => fst (snd m))) in Hm.
      change (In c mapping_cols) in Hm. rewrite mapping_cols_eq in Hm.
      simpl in Hm. lia.
    + simpl. apply H0none. left. lia.
Qed.

(** ** Lemmas on [str.replace] *)

Lemma occurs_single_cons (b c : ascii) (s : string) :
  occurs (String b EmptyString) (String c s)
  = (if ascii_dec b c then true else false) || occurs (String b EmptyString) s.
Proof. simpl. destruct (ascii_dec b c); destruct s; reflexivity. Qed.

Lemma replace_fuel_no_occurrence n old new s :
  occurs old s = false -> replace_fuel n old new s = s.
Proof.
  revert s. induction n as [|n IH]; intros s Hocc; [reflexivity|].
  destruct s as [|c s']; [reflexivity|].
  simpl in Hocc |- *. apply orb_false_iff in Hocc as [Hp Hs].
  rewrite Hp, IH by exact Hs. reflexivity.
Qed.

Lemma replace_fuel_removes (a : ascii) n s :
  (String.length s < n)%nat ->
  occurs (String a EmptyString)
    (replace_fuel n (String a EmptyString) EmptyString s) = false.
Proof.
  revert s. induction n as [|n IH]; intros s Hlen; [lia|].
  destruct s as [|c s']; [reflexivity|].
  simpl in Hlen. cbn [replace_fuel].
  destruct (prefix (String a EmptyString) (String c s')) eqn:Hp.
  - simpl drop. simpl append. apply IH. lia.
  - rewrite occurs_single_cons, IH by lia.
    simpl in Hp. destruct (ascii_dec a c); [destruct s'; discriminate|reflexivity].
Qed.

Lemma replace_fuel_keeps_absent (a b : ascii) n s :
  occurs (String b EmptyString) s = false ->
  occurs (String b EmptyString)
    (replace_fuel n (String a EmptyString) EmptyString s) = false.
Proof.
  revert s. induction n as [|n IH]; intros s Hocc; [exact Hocc|].
  destruct s as [|c s']; [reflexivity|].
  rewrite occurs_single_cons in Hocc. apply orb_false_iff in Hocc as [Hc Hs].
  cbn [replace_fuel].
  destruct (prefix (String a EmptyString) (String c s')).
  - simpl drop. simpl append. apply IH. exact Hs.
  - rewrite occurs_single_cons, Hc, IH by exact Hs. reflexivity.
Qed.

Lemma py_eq_str (m : option cellval) (s : string) :
  py_eq m (Some (CStr s)) = true <-> m = Some (CStr s).
Proof.
  destruct m as [[x|z|b]|]; simpl; split; intro H; try discriminate.
  - apply String.eqb_eq in H. subst. reflexivity.
  - inversion H. apply String.eqb_refl.
Qed.


(** Every row of the spec's field table is an entry of [mappings], whose
    output column carries the field's name in [COLUMN_HEADERS]. *)
Lemma spec_field_table_in_mappings name roff c :
  In (name, roff, c) spec_field_table ->
  exists col, nth_error (COLUMN_HEADERS config) (Z.to_nat (col - 1)) = Some name /\
              In (name, (col, FRead roff c)) mappings.
Proof.
  intros H. simpl in H.
  repeat (destruct H as [H|H];
          [inversion H; subst; eexists; split;
           [|simpl; repeat (try (left; reflexivity); right)]; reflexivity|]).
  destruct H.
Qed.

(** * The claims *)

(** C4: the first block of the source starts at row 1; block [s > 2]
    starts at row [(s - 2) * 9 + 1], so block 3 starts at row 10. *)
Theorem start_row_branches :
  start_row_of 2 = 1 /\
  (forall s, s > 2 -> start_row_of s = (s - 2) * 9 + 1) /\
  start_row_of 3 = 10.
Proof.
  split; [reflexivity|]. split; [|reflexivity].
  intros s Hs. unfold start_row_of.
  replace (s >? 2) with true by (symmetry; apply Z.gtb_lt; lia). reflexivity.
Qed.

Lemma start_row_branches_witness : 4 > 2 /\ start_row_of 4 = 19.
Proof.
  split; [reflexivity|].
  destruct start_row_branches as [_ [H _]].
  rewrite (H 4 eq_refl). reflexivity.
Defined.

(** C5: [_get_cell_value_safely] is a total function to strings: it is
    the cleaned value of the cell when the cell can be read and holds a
    value, and [""] when the cell is absent, holds [None] or [""], or the
    access raises. *)
Theorem get_cell_value_safely_total (src : sheet) (r c : Z) :
  get_cell_value_safely src r c
  = match ws_cell src r c with
    | Ok (Some v) => clean_string (Some v)
    | _ => ""%string
    end /\
  (src r c = None -> get_cell_value_safely src r c = ""%string) /\
  (src r c = Some (CStr "") -> get_cell_value_safely src r c = ""%string) /\
  (forall e, ws_cell src r c = Raise e -> get_cell_value_safely src r c = ""%string).
Proof.
  unfold get_cell_value_safely.
  split; [destruct (ws_cell src r c) as [[v|]|e]; reflexivity|].
  unfold ws_cell. split; [|split].
  - intros H. rewrite H. destruct (_ || _ || _); reflexivity.
  - intros H. rewrite H. destruct (_ || _ || _); reflexivity.
  - intros e H. rewrite H. reflexivity.
Qed.

Lemma get_cell_value_safely_total_witness :
  empty_sheet 0 3 = None /\ get_cell_value_safely empty_sheet 0 3 = ""%string.
Proof.
  split; [reflexivity|].
  destruct (get_cell_value_safely_total empty_sheet 0 3) as [_ [H _]].
  apply H. reflexivity.
Defined.

(** C6 (refuted as stated): cleaning is not idempotent.  Removing the
    bracket of [".PICT @ [:Pictures:"] forms the markup, which a second
    cleaning removes. *)
Lemma clean_string_not_idempotent :
  clean_string (Some (CStr (clean_string (Some (CStr ".PICT @ [:Pictures:")))))
  <> clean_string (Some (CStr ".PICT @ [:Pictures:")).
Proof. vm_compute. discriminate. Qed.

(** C6, as the code has it: a cleaned value never holds ['['] or [']'];
    a string free of the markup and of brackets is left unchanged, so a
    cleaned value that does not hold the markup is a fixed point of
    cleaning; and ["foo[1].PICT @ :Pictures:"] is cleaned to ["foo1"]. *)
Theorem clean_string_fixed_points :
  (forall v, occurs "[" (clean_string v) = false /\
             occurs "]" (clean_string v) = false) /\
  (forall x, occurs PICT_MARKUP x = false -> occurs "[" x = false ->
             occurs "]" x = false -> clean_string (Some (CStr x)) = x) /\
  (forall x, occurs PICT_MARKUP (clean_string (Some (CStr x))) = false ->
             clean_string (Some (CStr (clean_string (Some (CStr x)))))
             = clean_string (Some (CStr x))) /\
  clean_string (Some (CStr "foo[1].PICT @ :Pictures:")) = "foo1"%string.
Proof.
  assert (Hbr : forall v, occurs "[" (clean_string v) = false /\
                          occurs "]" (clean_string v) = false).
  { intros [v|]; [|split; reflexivity]. unfold clean_string, str_replace.
    split.
    - apply replace_fuel_keeps_absent, replace_fuel_removes. lia.
    - apply replace_fuel_removes. lia. }
  assert (Hfix : forall x, occurs PICT_MARKUP x = false -> occurs "[" x = false ->
             occurs "]" x = false -> clean_string (Some (CStr x)) = x).
  { intros x Hp Hl Hr. unfold clean_string, str_replace. simpl py_str.
    rewrite (replace_fuel_no_occurrence _ PICT_MARKUP) by exact Hp.
    rewrite (replace_fuel_no_occurrence _ "[") by exact Hl.
    apply replace_fuel_no_occurrence. exact Hr. }
  split; [exact Hbr|]. split; [exact Hfix|]. split; [|reflexivity].
  intros x Hp. destruct (Hbr (Some (CStr x))) as [Hl Hr].
  apply Hfix; assumption.
Qed.

Lemma clean_string_fixed_points_witness :
  occurs PICT_MARKUP "abc" = false /\ occurs "[" "abc" = false /\
  occurs "]" "abc" = false /\ clean_string (Some (CStr "abc")) = "abc"%string.
Proof.
  split; [reflexivity|]. split; [reflexivity|]. split; [reflexivity|].
  destruct clean_string_fixed_points as [_ [H _]].
  apply H; reflexivity.
Defined.

(** C7: [process_choice] gives, row by row, L's value for ['j'], K's value
    for ['f'], ["don't know"] for ['d'] and [None] otherwise. *)
Theorem process_choice_rows :
  (forall M L K i m l k,
     nth_error M i = Some m -> nth_error L i = Some l -> nth_error K i = Some k ->
     (m = Some (CStr "j") -> nth_error (process_choice M L K) i = Some l) /\
     (m = Some (CStr "f") -> nth_error (process_choice M L K) i = Some k) /\
     (m = Some (CStr "d") ->
        nth_error (process_choice M L K) i = Some (Some (CStr "don't know"))) /\
     (m <> Some (CStr "j") -> m <> Some (CStr "f") -> m <> Some (CStr "d") ->
        nth_error (process_choice M L K) i = Some None)) /\
  process_choice
    [Some (CStr "j"); Some (CStr "f"); Some (CStr "d"); Some (CStr "x")]
    [Some (CStr "a"); Some (CStr "b"); Some (CStr "c"); Some (CStr "d")]
    [Some (CStr "e"); Some (CStr "f"); Some (CStr "g"); Some (CStr "h")]
  = [Some (CStr "a"); Some (CStr "f"); Some (CStr "don't know"); None].
Proof.
  split; [|reflexivity].
  induction M as [|m0 M IH]; intros L K i m l k Hm Hl Hk;
    [destruct i; discriminate|].
  destruct L as [|l0 L]; [destruct i; discriminate|].
  destruct K as [|k0 K]; [destruct i; discriminate|].
  destruct i as [|i].
  - simpl in Hm, Hl, Hk. inversion Hm; inversion Hl; inversion Hk; subst.
    simpl. split; [|split; [|split]].
    + intros ->. reflexivity.
    + intros ->. reflexivity.
    + intros ->. reflexivity.
    + intros Hj Hf Hd.
      destruct (py_eq m (Some (CStr "j"))) eqn:E1;
        [apply py_eq_str in E1; contradiction|].
      destruct (py_eq m (Some (CStr "f"))) eqn:E2;
        [apply py_eq_str in E2; contradiction|].
      destruct (py_eq m (Some (CStr "d"))) eqn:E3;
        [apply py_eq_str in E3; contradiction|].
      reflexivity.
  - simpl in Hm, Hl, Hk. exact (IH L K i m l k Hm Hl Hk).
Qed.

Lemma process_choice_rows_witness :
  nth_error [Some (CStr "j")] 0 = Some (Some (CStr "j")) /\
  nth_error (process_choice [Some (CStr "j")] [Some (CInt 7)] [None]) 0
  = Some (Some (CInt 7)).
Proof.
  split; [reflexivity|].
  destruct process_choice_rows as [H _].
  destruct (H [Some (CStr "j")] [Some (CInt 7)] [None] 0%nat
              (Some (CStr "j")) (Some (CInt 7)) None eq_refl eq_refl eq_refl)
    as [Hj _].
  apply Hj. reflexivity.
Defined.

(** C9: in [process_same_choice] the equality test comes first: equal
    values score [1.0], also when both are ["don't know"]; [0.5] is given
    only when P is ["don't know"] and differs from J. *)
Theorem same_choice_equality_first :
  (forall P J i p j,
     nth_error P i = Some p -> nth_error J i = Some j ->
     (py_eq p j = true -> nth_error (process_same_choice P J) i = Some 1%Q) /\
     (p = Some (CStr "don't know") -> j = Some (CStr "don't know") ->
        nth_error (process_same_choice P J) i = Some 1%Q) /\
     (nth_error (process_same_choice P J) i = Some (1 # 2)%Q ->
        p = Some (CStr "don't know") /\ py_eq p j = false)) /\
  process_same_choice
    [Some (CStr "x"); Some (CStr "don't know"); Some (CStr "y")]
    [Some (CStr "x"); Some (CStr "z"); Some (CStr "z")]
  = [1%Q; (1 # 2)%Q; 0%Q].
Proof.
  split; [|reflexivity].
  induction P as [|p0 P IH]; intros J i p j Hp Hj; [destruct i; discriminate|].
  destruct J as [|j0 J]; [destruct i; discriminate|].
  destruct i as [|i]; [|exact (IH J i p j Hp Hj)].
  simpl in Hp, Hj. inversion Hp; inversion Hj; subst. simpl.
  split; [|split].
  - intros E. rewrite E. reflexivity.
  - intros -> ->. reflexivity.
  - destruct (py_eq p j) eqn:E; [discriminate|].
    destruct (py_eq p (Some (CStr "don't know"))) eqn:D; [|discriminate].
    intros _. split; [apply py_eq_str; exact D|reflexivity].
Qed.

Lemma same_choice_equality_first_witness :
  nth_error (process_same_choice [Some (CStr "don't know")]
                                 [Some (CStr "don't know")]) 0 = Some 1%Q.
Proof.
  destruct same_choice_equality_first as [H _].
  destruct (H [Some (CStr "don't know")] [Some (CStr "don't know")] 0%nat
              (Some (CStr "don't know")) (Some (CStr "don't know"))
              eq_refl eq_refl) as [_ [Hdk _]].
  apply Hdk; reflexivity.
Defined.

(** C10: both row-wise helpers stop at the end of their shortest input
    ([zip]). *)
Theorem zip_truncates :
  (forall M L K, length (process_choice M L K)
                 = Nat.min (Nat.min (length M) (length L)) (length K)) /\
  (forall P J, length (process_same_choice P J) = Nat.min (length P) (length J)) /\
  (forall n M L K, length M = n -> length L = n -> length K = n ->
                   length (process_choice M L K) = n) /\
  (forall n P J, length P = n -> length J = n ->
                 length (process_same_choice P J) = n).
Proof.
  assert (H1 : forall M L K, length (process_choice M L K)
                 = Nat.min (Nat.min (length M) (length L)) (length K)).
  { induction M as [|m M IH]; intros [|l L] [|k K]; simpl; try reflexivity;
      rewrite ?Nat.min_0_r, ?IH; reflexivity. }
  assert (H2 : forall P J, length (process_same_choice P J)
                           = Nat.min (length P) (length J)).
  { induction P as [|p P IH]; intros [|j J]; simpl; try reflexivity.
    rewrite IH. reflexivity. }
  split; [exact H1|]. split; [exact H2|]. split.
  - intros n M L K HM HL HK. rewrite H1, HM, HL, HK, !Nat.min_id. reflexivity.
  - intros n P J HP HJ. rewrite H2, HP, HJ, Nat.min_id. reflexivity.
Qed.

Lemma zip_truncates_witness :
  length (process_same_choice [None; None] [None; Some (CInt 1)]) = 2%nat.
Proof.
  destruct zip_truncates as [_ [_ [_ H]]].
  apply H; reflexivity.
Defined.

(** C1 (refuted as stated): openpyxl cuts a stored string to 32767
    characters, so the trial cell of sample 2 does not receive the cleaned
    value of a 32768-character source cell. *)
Lemma trial_value_truncated :
  match process_worksheet long_trial_sheet with
  | Ok (ws, _, _) =>
      ws 2 2 <> Some (OStr (get_cell_value_safely long_trial_sheet
                                                  (start_row_of 2 + 0) 3))
  | Raise _ => False
  end.
Proof.
  destruct (process_worksheet_shape long_trial_sheet)
    as [ws [w [l [E [_ [_ [_ [_ HD]]]]]]]].
  rewrite E.
  rewrite (HD 2 "trial"%string 2 (FRead 0 3));
    [|split; discriminate|right; left; reflexivity].
  intros H. apply (f_equal str_length_of) in H.
  vm_compute in H. discriminate.
Qed.

(** C1, as the code has it: for every sample [s] in [2, 25] and every
    field of the spec's table, the cell of output row [s] in the column
    named by the field holds the cleaned value read at
    [(start_row_of s + offset, column)], as openpyxl stores a string
    ([stored]: cut to 32767 characters, and left empty when those contain
    a control character openpyxl refuses). *)
Theorem sample_fields_written (src : sheet) (s : Z) :
  2 <= s <= 25 ->
  match process_worksheet src with
  | Ok (ws, _, _) =>
      forall name roff c, In (name, roff, c) spec_field_table ->
      exists col,
        nth_error (COLUMN_HEADERS config) (Z.to_nat (col - 1)) = Some name /\
        ws s col = Some (stored (OStr (get_cell_value_safely src
                                                         (start_row_of s + roff) c)))
  | Raise _ => False
  end.
Proof.
  intros Hs.
  destruct (process_worksheet_shape src) as [ws [w [l [E [_ [_ [_ [_ HD]]]]]]]].
  rewrite E. intros name roff c Hin.
  destruct (spec_field_table_in_mappings name roff c Hin) as [col [Hname Hm]].
  exists col. split; [exact Hname|].
  rewrite (HD s name col (FRead roff c) Hs Hm). reflexivity.
Qed.

Lemma sample_fields_written_witness :
  2 <= 2 <= 25 /\
  match process_worksheet empty_sheet with
  | Ok (ws, _, _) =>
      forall name roff c, In (name, roff, c) spec_field_table ->
      exists col,
        nth_error (COLUMN_HEADERS config) (Z.to_nat (col - 1)) = Some name /\
        ws 2 col = Some (stored (OStr (get_cell_value_safely empty_sheet
                                                         (start_row_of 2 + roff) c)))
  | Raise _ => False
  end.
Proof.
  split; [split; discriminate|].
  apply (sample_fields_written empty_sheet 2). split; discriminate.
Defined.

(** C2: whatever the source worksheet, the rows of the output that hold a
    cell besides the header row 1 are exactly the sample indices
    [START_SAMPLE .. END_SAMPLE], [END_SAMPLE - START_SAMPLE + 1] of them,
    and the header row holds the 18 header cells. *)
Theorem output_row_count (src : sheet) :
  match process_worksheet src with
  | Ok (ws, _, _) =>
      (forall r, r <> 1 ->
         ((exists c, ws r c <> None) <->
          START_SAMPLE config <= r <= END_SAMPLE config)) /\
      (forall r, r <> 1 ->
         ((exists c, ws r c <> None) <->
          In r (py_range (START_SAMPLE config) (END_SAMPLE config + 1)))) /\
      Z.of_nat (length (py_range (START_SAMPLE config) (END_SAMPLE config + 1)))
        = END_SAMPLE config - START_SAMPLE config + 1 /\
      (forall c, ws 1 c <> None <-> 1 <= c <= 18)
  | Raise _ => False
  end.
Proof.
  destruct (process_worksheet_shape src)
    as [ws [w [l [E [_ [Hhead [Hout [_ HD]]]]]]]].
  rewrite E.
  assert (Hrow : forall r, r <> 1 -> ((exists c, ws r c <> None) <-> 2 <= r <= 25)).
  { intros r Hr. split.
    - intros [c Hc]. destruct (Z_le_dec 2 r); [destruct (Z_le_dec r 25)|].
      + lia.
      + exfalso. apply Hc, Hout; lia.
      + exfalso. apply Hc, Hout; lia.
    - intros Hs. exists 1.
      rewrite (HD r "Subject Number"%string 1 FSubject Hs) by (left; reflexivity).
      discriminate. }
  split; [exact Hrow|]. split; [|split; [reflexivity|exact Hhead]].
  intros r Hr. rewrite in_samples. apply Hrow. exact Hr.
Qed.

Lemma output_row_count_witness :
  match process_worksheet empty_sheet with
  | Ok (ws, _, _) => exists c, ws 2 c <> None
  | Raise _ => False
  end.
Proof.
  generalize (output_row_count empty_sheet).
  destruct (process_worksheet empty_sheet) as [[[ws w] l]|e]; [|tauto].
  intros [H _]. apply (proj2 (H 2 ltac:(discriminate))).
  split; discriminate.
Defined.

(** C3 (a slip of the code): when cell A12 is empty, [_get_subject_number]
    falls off the end of its [if] without a [return]: it gives [None], not
    [0], and shows no warning, so the Subject Number cells are left empty.
    The default [0] and the warning come only from the [except] branch, as
    for a non-numeric suffix. *)
Theorem subject_number_empty_cell :
  get_subject_number empty_sheet = (None, []) /\
  get_subject_number (sheet_with_a12 (CStr "")) = (None, []) /\
  match process_worksheet empty_sheet with
  | Ok (ws, warnings, _) => warnings = [] /\ ws 2 1 = Some ONone
  | Raise _ => False
  end /\
  get_subject_number (sheet_with_a12 (CStr "Subject Number: x"))
  = (Some 0, [SUBJECT_WARNING]) /\
  get_subject_number (sheet_with_a12 (CStr "Subject Number: 42")) = (Some 42, []).
Proof.
  split; [reflexivity|]. split; [reflexivity|].
  split; [|split; reflexivity].
  destruct (process_worksheet_shape empty_sheet)
    as [ws [w [l [E [Hw [_ [_ [_ HD]]]]]]]].
  rewrite E. split; [exact Hw|].
  rewrite (HD 2 "Subject Number"%string 1 FSubject);
    [reflexivity|split; discriminate|left; reflexivity].
Qed.

(** C8 (refuted as stated): a data row has 13 cells written by the loop,
    not 14. *)
Lemma row_has_13_cells :
  match process_worksheet empty_sheet with
  | Ok (ws, _, _) =>
      length (filter (fun c => is_created (ws 2 c)) (map Z.of_nat (seq 1 18)))
      <> 14%nat
  | Raise _ => False
  end.
Proof. vm_compute. discriminate. Qed.

(** C8, as the code has it: in every data row the loop writes exactly the
    13 columns of [mappings] (Subject Number and the 12 fields), 13 of the
    18 declared columns; the columns of "null", "Choice", "SameChoice",
    "BeliefType" and "AgeGroup" (3, 15, 16, 17, 18) are never written. *)
Theorem row_columns_written (src : sheet) (s : Z) :
  2 <= s <= 25 ->
  match process_worksheet src with
  | Ok (ws, _, _) =>
      (forall c, ws s c <> None <-> In c mapping_cols) /\
      (forall c, In c [3; 15; 16; 17; 18] -> ws s c = None) /\
      map (fun c => nth_error (COLUMN_HEADERS config) (Z.to_nat (c - 1)))
          [3; 15; 16; 17; 18]
      = map Some ["null"; "Choice"; "SameChoice"; "BeliefType"; "AgeGroup"]%string /\
      length (filter (fun c => is_created (ws s c)) (map Z.of_nat (seq 1 18)))
      = 13%nat
  | Raise _ => False
  end.
Proof.
  intros Hs.
  destruct (process_worksheet_shape src)
    as [ws [w [l [E [_ [_ [_ [Hout HD]]]]]]]].
  rewrite E.
  assert (Hiff : forall c, ws s c <> None <-> In c mapping_cols).
  { intros c. split.
    - intros Hc. destruct (in_dec Z.eq_dec c mapping_cols) as [Hin|Hnin];
        [exact Hin|]. exfalso. apply Hc, Hout; assumption.
    - intros Hin. unfold mapping_cols in Hin. apply in_map_iff in Hin.
      destruct Hin as [[name [col f]] [Heq Hm]]. simpl in Heq. subst col.
      rewrite (HD s name c f Hs Hm). discriminate. }
  assert (Hb : forall c, is_created (ws s c) = existsb (Z.eqb c) mapping_cols).
  { intros c. destruct (existsb (Z.eqb c) mapping_cols) eqn:X.
    - apply existsb_exists in X. destruct X as [x [Hx Heq]].
      apply Z.eqb_eq in Heq. subst x.
      destruct (ws s c) eqn:W; [reflexivity|].
      exfalso. apply (proj2 (Hiff c) Hx). exact W.
    - destruct (ws s c) eqn:W; [|reflexivity].
      assert (Hin : In c mapping_cols) by (apply Hiff; rewrite W; discriminate).
      assert (Hex : existsb (Z.eqb c) mapping_cols = true).
      { apply existsb_exists. exists c. split; [exact Hin|apply Z.eqb_refl]. }
      congruence. }
  split; [exact Hiff|]. split; [|split; [reflexivity|]].
  - intros c Hc. destruct (ws s c) eqn:W; [|reflexivity].
    exfalso. assert (Hin : In c mapping_cols) by (apply Hiff; rewrite W; discriminate).
    rewrite mapping_cols_eq in Hin. simpl in Hc, Hin. lia.
  - rewrite (filter_ext _ _ Hb). reflexivity.
Qed.

Lemma row_columns_written_witness :
  2 <= 25 <= 25 /\
  match process_worksheet empty_sheet with
  | Ok (ws, _, _) =>
      (forall c, ws 25 c <> None <-> In c mapping_cols) /\
      (forall c, In c [3; 15; 16; 17; 18] -> ws 25 c = None) /\
      map (fun c => nth_error (COLUMN_HEADERS config) (Z.to_nat (c - 1)))
          [3; 15; 16; 17; 18]
      = map Some ["null"; "Choice"; "SameChoice"; "BeliefType"; "AgeGroup"]%string /\
      length (filter (fun c => is_created (ws 25 c)) (map Z.of_nat (seq 1 18)))
      = 13%nat
  | Raise _ => False
  end.
Proof.
  split; [split; discriminate|].
  apply (row_columns_written empty_sheet 25). split; discriminate.
Defined.

(** * Further properties of [src/main.py] *)

(** ** Helper lemmas *)

Lemma write_headers_values ws idx hs ws' :
  write_headers ws idx hs = Ok ws' -> 1 <= idx ->
  (forall c, idx <= c -> ws 1 c = None) ->
  forall k h, nth_error hs k = Some h ->
  ws' 1 (idx + Z.of_nat k) = Some (stored (OStr h)).
Proof.
  revert ws idx. induction hs as [|h0 hs IH]; intros ws idx Hw Hi Hfresh k h Hk;
    [destruct k; discriminate|].
  simpl in Hw. destruct (cell_write ws 1 idx (OStr h0)) as [ws1 [e|]] eqn:E;
    [discriminate|].
  destruct k as [|k].
  - simpl in Hk. inversion Hk; subst.
    destruct (write_headers_spec ws1 (idx + 1) hs ws' Hw ltac:(lia)) as [Hsame _].
    rewrite Z.add_0_r, Hsame by lia.
    change ws1 with (fst (ws1, @None pyexc)). rewrite <- E.
    apply cell_write_fresh; [split; lia|]. apply Hfresh. lia.
  - simpl in Hk.
    replace (idx + Z.of_nat (S k)) with (idx + 1 + Z.of_nat k) by lia.
    apply (IH ws1); auto; [lia|].
    intros c Hc. change ws1 with (fst (ws1, @None pyexc)). rewrite <- E.
    rewrite cell_write_other by lia. apply Hfresh. lia.
Qed.

Lemma headers_stored h :
  In h (COLUMN_HEADERS config) -> stored (OStr h) = OStr h.
Proof.
  intros H. simpl in H.
  repeat (destruct H as [<-|H]; [vm_compute; reflexivity|]). destruct H.
Qed.

Lemma process_worksheet_rows_outside (src : sheet) :
  exists ws0 ws warnings log,
    initialize_new_workbook = Ok ws0 /\
    process_worksheet src = Ok (ws, warnings, log) /\
    forall r c, ~ (2 <= r <= 25) -> ws r c = ws0 r c.
Proof.
  destruct initialize_new_workbook_ok as [ws0 [E _]].
  unfold process_worksheet. rewrite E.
  destruct (get_subject_number src) as [subj warnings].
  destruct (process_samples src ws0 subj) as [ws log] eqn:P.
  exists ws0, ws, warnings, log. split; [reflexivity|]. split; [reflexivity|].
  intros r c Hr.
  change ws with (fst (ws, log)). rewrite <- P. unfold process_samples.
  rewrite process_sample_list_other by (rewrite in_samples; exact Hr).
  reflexivity.
Qed.

Lemma cell_write_error_kind ws r c v :
  valid_coord r c ->
  snd (cell_write ws r c v) = None \/
  snd (cell_write ws r c v) = Some IllegalCharacterError.
Proof.
  intros Hv. unfold cell_write. rewrite (valid_coord_false _ _ Hv).
  destruct v as [|s|z]; simpl; auto.
  unfold check_string. destruct (has_illegal _); simpl; auto.
Qed.

Lemma apply_mappings_log src subj base sr ms st :
  1 <= base <= 1048576 -> Forall (fun m => 1 <= fst (snd m)) ms ->
  Forall (eq IllegalCharacterError) (snd st) ->
  Forall (eq IllegalCharacterError) (snd (apply_mappings src subj base sr ms st)).
Proof.
  revert st. induction ms as [|[n [col f]] ms IH]; intros [ws log] Hb Hms Hlog;
    [exact Hlog|].
  inversion Hms as [|x l Hcol Hms']; subst. simpl in Hcol.
  cbn [apply_mappings]. apply IH; [exact Hb|exact Hms'|].
  destruct (cell_write_error_kind ws base col (eval_value_func src subj sr f))
    as [He|He]; [split; lia|..];
  destruct (cell_write ws base col _) as [ws' e]; simpl in He; subst; simpl;
    [exact Hlog|].
  apply Forall_app. split; [exact Hlog|]. repeat constructor.
Qed.

Lemma mappings_cols_valid : Forall (fun m => 1 <= fst (snd m)) mappings.
Proof. repeat constructor; simpl; lia. Qed.

Lemma process_sample_list_log src subj samples st :
  Forall (fun s => 1 <= s <= 1048576) samples ->
  Forall (eq IllegalCharacterError) (snd st) ->
  Forall (eq IllegalCharacterError) (snd (process_sample_list src subj samples st)).
Proof.
  revert st. induction samples as [|s rest IH]; intros st Hs Hlog; [exact Hlog|].
  inversion Hs as [|x l Hx Hrest]; subst.
  cbn [process_sample_list]. apply IH; [exact Hrest|].
  apply apply_mappings_log; [exact Hx|apply mappings_cols_valid|exact Hlog].
Qed.

Lemma apply_mappings_ext src1 src2 subj base sr ms st :
  (forall n c f, In (n, (c, f)) ms ->
     eval_value_func src1 subj sr f = eval_value_func src2 subj sr f) ->
  apply_mappings src1 subj base sr ms st = apply_mappings src2 subj base sr ms st.
Proof.
  revert st. induction ms as [|[n [col f]] ms IH]; intros [ws log] Heq; [reflexivity|].
  cbn [apply_mappings].
  rewrite (Heq n col f) by (left; reflexivity).
  apply IH. intros n' c' f' Hin. apply (Heq n' c' f'). right. exact Hin.
Qed.

Lemma process_sample_list_ext src1 src2 subj samples st :
  (forall s n c f, In s samples -> In (n, (c, f)) mappings ->
     eval_value_func src1 subj (start_row_of s) f
     = eval_value_func src2 subj (start_row_of s) f) ->
  process_sample_list src1 subj samples st = process_sample_list src2 subj samples st.
Proof.
  revert st. induction samples as [|s rest IH]; intros st Heq; [reflexivity|].
  cbn [process_sample_list].
  rewrite (apply_mappings_ext src1 src2 subj s (start_row_of s) mappings st)
    by (intros n c f Hin; apply (Heq s n c f); [left; reflexivity|exact Hin]).
  apply IH. intros s' n c f Hs' Hin. apply (Heq s' n c f); [right; exact Hs'|exact Hin].
Qed.

(** ** Properties of the sample loop *)

(** The 9-row source blocks of samples 2..25 tile rows 1..216: no row is
    read by two samples, or at two offsets of one sample, and every row of
    1..216 belongs to one block. *)
Theorem sample_blocks_tile :
  (forall s1 s2 o1 o2, 2 <= s1 <= 25 -> 2 <= s2 <= 25 ->
     0 <= o1 <= 8 -> 0 <= o2 <= 8 ->
     start_row_of s1 + o1 = start_row_of s2 + o2 -> s1 = s2 /\ o1 = o2) /\
  (forall r, 1 <= r <= 216 ->
     exists s o, 2 <= s <= 25 /\ 0 <= o <= 8 /\ start_row_of s + o = r).
Proof.
  assert (Hsr : forall s, 2 <= s -> start_row_of s = (s - 2) * 9 + 1).
  { intros s Hs. unfold start_row_of. destruct (s >? 2) eqn:E; [reflexivity|].
    rewrite Z.gtb_ltb in E. apply Z.ltb_ge in E. replace s with 2 by lia.
    reflexivity. }
  split.
  - intros s1 s2 o1 o2 H1 H2 Ho1 Ho2 Heq.
    rewrite !Hsr in Heq by lia. split; lia.
  - intros r Hr. exists ((r - 1) / 9 + 2), ((r - 1) mod 9).
    pose proof (Z.div_mod (r - 1) 9 ltac:(lia)).
    pose proof (Z.mod_pos_bound (r - 1) 9 ltac:(lia)).
    rewrite Hsr by lia. lia.
Qed.

Lemma sample_blocks_tile_witness :
  2 <= 3 <= 25 /\ 0 <= 4 <= 8 /\ (3 = 3 /\ 4 = 4) /\
  exists s o, 2 <= s <= 25 /\ 0 <= o <= 8 /\ start_row_of s + o = 100.
Proof.
  destruct sample_blocks_tile as [H1 H2].
  split; [lia|]. split; [lia|]. split.
  - apply (H1 3 3 4 4); [lia|lia|lia|lia|reflexivity].
  - apply H2. lia.
Defined.

(** The Subject Number column holds the same cell in every data row: the
    integer read once from A12, or an empty cell when that read gave [None]. *)
Theorem subject_number_constant (src : sheet) (s1 s2 : Z) :
  2 <= s1 <= 25 -> 2 <= s2 <= 25 ->
  match process_worksheet src with
  | Ok (ws, _, _) =>
      ws s1 1 = ws s2 1 /\
      ws s1 1 = Some (match fst (get_subject_number src) with
                      | Some n => OInt n
                      | None => ONone
                      end)
  | Raise _ => False
  end.
Proof.
  intros H1 H2.
  destruct (process_worksheet_shape src) as [ws [w [l [E [_ [_ [_ [_ HD]]]]]]]].
  rewrite E.
  rewrite (HD s1 "Subject Number"%string 1 FSubject H1 (or_introl eq_refl)),
          (HD s2 "Subject Number"%string 1 FSubject H2 (or_introl eq_refl)).
  split; [reflexivity|]. simpl. destruct (fst (get_subject_number src)); reflexivity.
Qed.

Lemma subject_number_constant_witness :
  2 <= 2 <= 25 /\ 2 <= 25 <= 25 /\
  match process_worksheet empty_sheet with
  | Ok (ws, _, _) =>
      ws 2 1 = ws 25 1 /\
      ws 2 1 = Some (match fst (get_subject_number empty_sheet) with
                     | Some n => OInt n
                     | None => ONone
                     end)
  | Raise _ => False
  end.
Proof.
  split; [lia|]. split; [lia|].
  apply subject_number_constant; lia.
Defined.

(** Row 1 of the output holds the 18 headers of [COLUMN_HEADERS], in order. *)
Theorem header_row_contents (src : sheet) :
  match process_worksheet src with
  | Ok (ws, _, _) =>
      forall k h, nth_error (COLUMN_HEADERS config) k = Some h ->
      ws 1 (1 + Z.of_nat k) = Some (OStr h)
  | Raise _ => False
  end.
Proof.
  destruct (process_worksheet_rows_outside src) as [ws0 [ws [w [l [E0 [E Hout]]]]]].
  rewrite E. intros k h Hk.
  rewrite Hout by lia.
  rewrite initialize_new_workbook_eq in E0.
  rewrite (write_headers_values empty_osheet 1 _ ws0 E0 ltac:(lia)
             (fun _ _ => eq_refl) k h Hk).
  rewrite headers_stored; [reflexivity|]. eapply nth_error_In. exact Hk.
Qed.

Lemma header_row_contents_witness :
  match process_worksheet empty_sheet with
  | Ok (ws, _, _) => ws 1 18 = Some (OStr "AgeGroup")
  | Raise _ => False
  end.
Proof.
  generalize (header_row_contents empty_sheet).
  destruct (process_worksheet empty_sheet) as [[[ws w] l]|e]; [|tauto].
  intros H. apply (H 17%nat). reflexivity.
Defined.

(** [process_worksheet] always succeeds, and the only exception the
    per-cell [except] of [_process_samples] ever catches (and prints) is
    openpyxl's [IllegalCharacterError]: every write targets a valid
    coordinate. *)
Theorem printed_errors_are_illegal_characters (src : sheet) :
  match process_worksheet src with
  | Ok (_, _, log) => Forall (eq IllegalCharacterError) log
  | Raise _ => False
  end.
Proof.
  destruct initialize_new_workbook_ok as [ws0 [E _]].
  unfold process_worksheet. rewrite E.
  destruct (get_subject_number src) as [subj w].
  destruct (process_samples src ws0 subj) as [ws log] eqn:P.
  change log with (snd (ws, log)). rewrite <- P. unfold process_samples.
  apply process_sample_list_log; [|constructor].
  rewrite samples_range. repeat constructor; lia.
Qed.

(** The output depends only on cell A12 and on the source cells of rows
    1..216 in columns 3, 5, 6, 12 and 14: two source worksheets that agree
    there give the same result (cells, warnings and printed errors). *)
Theorem process_worksheet_reads_only (src1 src2 : sheet) :
  src1 12 1 = src2 12 1 ->
  (forall r c, 1 <= r <= 216 -> In c [3; 5; 6; 12; 14] -> src1 r c = src2 r c) ->
  process_worksheet src1 = process_worksheet src2.
Proof.
  intros HA Hblk.
  assert (Hsubj : get_subject_number src1 = get_subject_number src2)
    by (unfold get_subject_number; rewrite HA; reflexivity).
  unfold process_worksheet. rewrite Hsubj.
  destruct initialize_new_workbook as [ws0|e]; [|reflexivity].
  destruct (get_subject_number src2) as [subj w].
  unfold process_samples.
  rewrite (process_sample_list_ext src1 src2); [reflexivity|].
  intros s n c f Hs Hm. apply in_samples in Hs.
  destruct f as [|off col]; [reflexivity|]. simpl.
  assert (Hoff : 0 <= off <= 8 /\ In col [3; 5; 6; 12; 14]).
  { simpl in Hm.
    repeat (destruct Hm as [Hm|Hm];
      [first [discriminate Hm | inversion Hm; subst; split; [lia|simpl; tauto]]|]).
    destruct Hm. }
  unfold get_cell_value_safely, ws_cell.
  destruct (_ || _ || _) eqn:B; [reflexivity|].
  rewrite (Hblk (start_row_of s + off) col); [reflexivity| |apply Hoff].
  unfold start_row_of. destruct (s >? 2) eqn:G;
    [apply Z.gtb_lt in G|rewrite Z.gtb_ltb in G; apply Z.ltb_ge in G]; lia.
Qed.

Lemma process_worksheet_reads_only_witness :
  sheet_with_a1 12 1 = empty_sheet 12 1 /\
  (forall r c, 1 <= r <= 216 -> In c [3; 5; 6; 12; 14] ->
     sheet_with_a1 r c = empty_sheet r c) /\
  process_worksheet sheet_with_a1 = process_worksheet empty_sheet.
Proof.
  assert (Hb : forall r c, 1 <= r <= 216 -> In c [3; 5; 6; 12; 14] ->
                sheet_with_a1 r c = empty_sheet r c).
  { intros r c _ Hc. unfold sheet_with_a1, empty_sheet.
    destruct (c =? 1) eqn:C; [apply Z.eqb_eq in C; subst; simpl in Hc; lia|].
    rewrite andb_false_r. reflexivity. }
  split; [reflexivity|]. split; [exact Hb|].
  apply process_worksheet_reads_only; [reflexivity|exact Hb].
Defined.


(** ** The column helpers *)

Lemma last_char_split (s : string) :
  s <> EmptyString ->
  exists pre c, s = (pre ++ String c EmptyString)%string /\
    String.substring (String.length s - 1) 1 s = String c EmptyString.
Proof.
  induction s as [|a s IH]; intros Hne; [contradiction|].
  destruct s as [|b s'].
  - exists EmptyString, a. split; reflexivity.
  - destruct IH as [pre [c [Heq Hsub]]]; [discriminate|].
    exists (String a pre), c. split; [rewrite Heq; reflexivity|].
    simpl String.length in *.
    replace (S (S (String.length s')) - 1)%nat with (S (String.length s')) by lia.
    replace (S (String.length s') - 1)%nat with (String.length s') in Hsub by lia.
    simpl. exact Hsub.
Qed.

Lemma digits_fuel_head f n acc :
  exists d rest, 0 <= d < 10 /\ digits_fuel (S f) n acc = String (digit_char d) rest.
Proof.
  revert n acc. induction f as [|f IH]; intros n acc.
  - exists (n mod 10), acc. split; [apply Z.mod_pos_bound; lia|].
    simpl. destruct (n <? 10); reflexivity.
  - cbn [digits_fuel]. destruct (n <? 10).
    + exists (n mod 10), acc. split; [apply Z.mod_pos_bound; lia|reflexivity].
    + apply IH.
Qed.

Lemma str_int_nonempty z : str_int z <> EmptyString.
Proof.
  unfold str_int. destruct (z <? 0); [discriminate|].
  destruct (digits_fuel_head (Pos.size_nat (Z.to_pos (Z.abs z))) (Z.abs z) EmptyString)
    as [d [rest [_ ->]]]. discriminate.
Qed.

(** [get_belief_type] keeps the length of the column; a falsy cell gives
    [""], any other cell the last character of its [str()], as a
    one-character string. *)
Theorem belief_type_last_char (column : list (option cellval)) :
  length (get_belief_type column) = length column /\
  forall i v, nth_error column i = Some v ->
    (truthy v = false -> nth_error (get_belief_type column) i = Some ""%string) /\
    (truthy v = true ->
       exists x pre c, v = Some x /\ py_str x = (pre ++ String c EmptyString)%string /\
                       nth_error (get_belief_type column) i = Some (String c EmptyString)).
Proof.
  split; [apply length_map|].
  intros i v Hv. unfold get_belief_type. rewrite nth_error_map, Hv. simpl.
  split; [intros ->; reflexivity|].
  intros T. rewrite T. destruct v as [x|]; [|discriminate].
  assert (Hne : py_str x <> EmptyString).
  { destruct x as [s|z|[|]]; simpl in T |- *; try discriminate.
    - intros ->. discriminate.
    - apply str_int_nonempty. }
  destruct (last_char_split (py_str x) Hne) as [pre [c [Heq Hsub]]].
  exists x, pre, c. split; [reflexivity|]. split; [exact Heq|].
  rewrite Hsub. reflexivity.
Qed.

Lemma belief_type_last_char_witness :
  nth_error [Some (CInt (-15))] 0 = Some (Some (CInt (-15))) /\
  truthy (Some (CInt (-15))) = true /\
  exists x pre c, Some (CInt (-15)) = Some x /\
    py_str x = (pre ++ String c EmptyString)%string /\
    nth_error (get_belief_type [Some (CInt (-15))]) 0 = Some (String c EmptyString).
Proof.
  split; [reflexivity|]. split; [reflexivity|].
  destruct (belief_type_last_char [Some (CInt (-15))]) as [_ H].
  destruct (H 0%nat _ eq_refl) as [_ H2].
  apply H2. reflexivity.
Defined.

Lemma py_eq_refl v : py_eq v v = true.
Proof.
  destruct v as [[s|z|[|]]|]; simpl; try reflexivity.
  - apply String.eqb_refl.
  - apply Z.eqb_refl.
Qed.

(** Every same-choice score is 0, 0.5 or 1, and comparing a column with
    itself scores 1 on every row. *)
Theorem same_choice_scores (P J : list (option cellval)) :
  Forall (fun q => q = 0%Q \/ q = (1 # 2)%Q \/ q = 1%Q) (process_same_choice P J) /\
  process_same_choice P P = repeat 1%Q (length P).
Proof.
  split.
  - revert J. induction P as [|p P IH]; intros [|j J]; simpl; try constructor.
    + destruct (py_eq p j); [tauto|].
      destruct (py_eq p (Some (CStr "don't know"))); tauto.
    + apply IH.
  - induction P as [|p P IH]; [reflexivity|]. simpl. rewrite py_eq_refl, IH.
    reflexivity.
Qed.

(** ** [str()] and [int()] on integers *)

Fixpoint all_chars (p : ascii -> bool) (s : string) : bool :=
  match s with
  | EmptyString => true
  | String c s' => p c && all_chars p s'
  end.

(** The characters [str()] of an [int] is made of: digits and ['-']. *)
Definition num_char (c : ascii) : bool :=
  let k := nat_of_ascii c in
  ((48 <=? k) && (k <=? 57))%nat || (k =? 45)%nat.

Lemma digit_char_code d :
  0 <= d < 10 -> nat_of_ascii (digit_char d) = (48 + Z.to_nat d)%nat.
Proof. intros Hd. apply nat_ascii_embedding. lia. Qed.

Lemma digit_val_digit_char d : 0 <= d < 10 -> digit_val (digit_char d) = Some d.
Proof.
  intros Hd. unfold digit_val. rewrite digit_char_code by exact Hd.
  replace ((48 <=? 48 + Z.to_nat d) && (48 + Z.to_nat d <=? 57))%nat with true
    by (symmetry; apply andb_true_intro; split; apply Nat.leb_le; lia).
  f_equal. lia.
Qed.

Lemma num_char_digit_char d : 0 <= d < 10 -> num_char (digit_char d) = true.
Proof.
  intros Hd. unfold num_char. rewrite digit_char_code by exact Hd.
  apply orb_true_intro. left. apply andb_true_intro; split; apply Nat.leb_le; lia.
Qed.

Lemma digits_fuel_chars f n acc :
  all_chars num_char acc = true -> all_chars num_char (digits_fuel f n acc) = true.
Proof.
  revert n acc. induction f as [|f IH]; intros n acc Hacc; [exact Hacc|].
  cbn [digits_fuel].
  assert (Hc : all_chars num_char (String (digit_char (n mod 10)) acc) = true).
  { cbn [all_chars]. rewrite num_char_digit_char by (apply Z.mod_pos_bound; lia).
    exact Hacc. }
  destruct (n <? 10); [exact Hc|]. apply IH. exact Hc.
Qed.

Lemma str_int_chars z : all_chars num_char (str_int z) = true.
Proof.
  unfold str_int.
  pose proof (digits_fuel_chars (S (Pos.size_nat (Z.to_pos (Z.abs z)))) (Z.abs z)
                EmptyString eq_refl) as H.
  destruct (z <? 0); [|exact H]. cbn [all_chars]. rewrite H. reflexivity.
Qed.

Lemma parse_digits_digits_fuel f n acc a p :
  0 <= n < 10 ^ Z.of_nat (S f) ->
  exists k, 0 <= k /\
    parse_digits (digits_fuel (S f) n acc) a p = parse_digits acc (a * 10 ^ k + n) true.
Proof.
  revert n acc a p. induction f as [|f IH]; intros n acc a p Hn.
  - exists 1. split; [lia|].
    assert (Hlt : n < 10) by (rewrite Z.pow_1_r in Hn; lia).
    cbn [digits_fuel]. rewrite (Z.mod_small n 10) by lia.
    destruct (n <? 10); cbn [parse_digits];
      rewrite digit_val_digit_char by lia; f_equal; lia.
  - change (digits_fuel (S (S f)) n acc) with
      (if n <? 10 then String (digit_char (n mod 10)) acc
       else digits_fuel (S f) (n / 10) (String (digit_char (n mod 10)) acc)).
    destruct (n <? 10) eqn:Hlt.
    + apply Z.ltb_lt in Hlt. exists 1. split; [lia|]. cbn [parse_digits].
      rewrite (Z.mod_small n 10), digit_val_digit_char by lia. f_equal; lia.
    + apply Z.ltb_ge in Hlt.
      assert (Hq : 0 <= n / 10 < 10 ^ Z.of_nat (S f)).
      { split; [apply Z.div_pos; lia|].
        apply Z.div_lt_upper_bound; [lia|].
        rewrite Nat2Z.inj_succ, Z.pow_succ_r in Hn by lia. lia. }
      destruct (IH (n / 10) (String (digit_char (n mod 10)) acc) a p Hq)
        as [k [Hk Heq]].
      exists (k + 1). split; [lia|]. rewrite Heq. cbn [parse_digits].
      rewrite digit_val_digit_char by (apply Z.mod_pos_bound; lia).
      f_equal. rewrite Z.pow_add_r by lia.
      pose proof (Z.div_mod n 10 ltac:(lia)). lia.
Qed.

Lemma pos_lt_pow2_size p : Zpos p < 2 ^ Z.of_nat (Pos.size_nat p).
Proof.
  induction p as [p IH|p IH|]; cbn [Pos.size_nat]; rewrite ?Nat2Z.inj_succ,
    ?Z.pow_succ_r by lia; lia.
Qed.

Lemma str_int_fuel_enough z :
  0 <= Z.abs z < 10 ^ Z.of_nat (S (Pos.size_nat (Z.to_pos (Z.abs z)))).
Proof.
  split; [lia|].
  set (k := Pos.size_nat (Z.to_pos (Z.abs z))).
  assert (H2 : 2 ^ Z.of_nat k <= 10 ^ Z.of_nat k)
    by (apply Z.pow_le_mono_l; lia).
  assert (H10 : 10 ^ Z.of_nat k <= 10 ^ Z.of_nat (S k))
    by (apply Z.pow_le_mono_r; lia).
  destruct z as [|p|p]; simpl Z.abs in *.
  - apply Z.pow_pos_nonneg; lia.
  - pose proof (pos_lt_pow2_size p). simpl in k. subst k. lia.
  - pose proof (pos_lt_pow2_size p). simpl in k. subst k. lia.
Qed.

Lemma num_char_not_space c : num_char c = true -> is_space c = false.
Proof.
  revert c. intros [b0 b1 b2 b3 b4 b5 b6 b7].
  destruct b0, b1, b2, b3, b4, b5, b6, b7; vm_compute;
    intro H; first [reflexivity | discriminate H].
Qed.

Lemma lstrip_num s : all_chars num_char s = true -> lstrip s = s.
Proof.
  destruct s as [|c s']; [reflexivity|]. cbn [all_chars lstrip].
  intros H. apply andb_true_iff in H as [Hc _].
  rewrite num_char_not_space by exact Hc. reflexivity.
Qed.

Lemma rev_string_chars p s acc :
  all_chars p (rev_string s acc) = all_chars p s && all_chars p acc.
Proof.
  revert acc. induction s as [|c s IH]; intros acc; [reflexivity|].
  cbn [rev_string all_chars]. rewrite IH. cbn [all_chars].
  destruct (p c), (all_chars p s), (all_chars p acc); reflexivity.
Qed.

Lemma rev_string_rev_string s acc b :
  rev_string (rev_string s acc) b = rev_string acc (s ++ b)%string.
Proof.
  revert acc b. induction s as [|c s IH]; intros acc b; [reflexivity|].
  cbn [rev_string]. rewrite IH. reflexivity.
Qed.

Lemma string_app_nil_r s : (s ++ "")%string = s.
Proof. induction s as [|c s IH]; [reflexivity|]. simpl. rewrite IH. reflexivity. Qed.

Lemma strip_num s : all_chars num_char s = true -> strip s = s.
Proof.
  intros H. unfold strip. rewrite (lstrip_num s H).
  rewrite (lstrip_num (rev_string s EmptyString))
    by (rewrite rev_string_chars, H; reflexivity).
  rewrite rev_string_rev_string, string_app_nil_r. reflexivity.
Qed.

Lemma digit_char_not_sign d :
  0 <= d < 10 -> digit_char d <> "-"%char /\ digit_char d <> "+"%char.
Proof.
  intros Hd. split; intros H; apply (f_equal nat_of_ascii) in H;
    rewrite digit_char_code in H by exact Hd; vm_compute in H; lia.
Qed.

Lemma py_int_unsigned c rest :
  c <> "-"%char -> c <> "+"%char -> strip (String c rest) = String c rest ->
  py_int (String c rest) =
  match parse_digits (String c rest) 0 false with
  | Some z => Ok z
  | None => Raise ValueError
  end.
Proof.
  intros Hm Hp Hs. unfold py_int. rewrite Hs. clear Hs.
  revert c Hm Hp. intros [b0 b1 b2 b3 b4 b5 b6 b7] Hm Hp.
  destruct b0, b1, b2, b3, b4, b5, b6, b7;
    first [reflexivity | exfalso; apply Hm; reflexivity
          | exfalso; apply Hp; reflexivity].
Qed.

Lemma parse_digits_str_int_digits z :
  parse_digits (digits_fuel (S (Pos.size_nat (Z.to_pos (Z.abs z)))) (Z.abs z) EmptyString)
    0 false = Some (Z.abs z).
Proof.
  destruct (parse_digits_digits_fuel (Pos.size_nat (Z.to_pos (Z.abs z))) (Z.abs z)
              EmptyString 0 false (str_int_fuel_enough z)) as [k [_ ->]].
  reflexivity.
Qed.

Lemma py_int_str_int z : py_int (str_int z) = Ok z.
Proof.
  pose proof (str_int_chars z) as Hch.
  pose proof (strip_num _ Hch) as Hst.
  pose proof (parse_digits_str_int_digits z) as Hpd.
  unfold str_int in *.
  remember (digits_fuel (S (Pos.size_nat (Z.to_pos (Z.abs z)))) (Z.abs z) EmptyString)
    as ds eqn:Hds.
  destruct (z <? 0) eqn:Hz.
  - apply Z.ltb_lt in Hz. unfold py_int. rewrite Hst. cbn -[parse_digits].
    rewrite Hpd. cbn. f_equal. lia.
  - apply Z.ltb_ge in Hz.
    destruct (digits_fuel_head (Pos.size_nat (Z.to_pos (Z.abs z))) (Z.abs z) EmptyString)
      as [d [rest [Hd Hhead]]].
    rewrite <- Hds in Hhead. rewrite Hhead in Hst, Hpd |- *.
    destruct (digit_char_not_sign d Hd) as [Hm Hp].
    rewrite py_int_unsigned by assumption. rewrite Hpd. f_equal. lia.
Qed.




Lemma occurs_absent_head a rest t :
  all_chars num_char t = true -> num_char a = false ->
  occurs (String a rest) t = false.
Proof.
  intros Ht Ha. induction t as [|c t IH]; [reflexivity|].
  cbn [all_chars] in Ht. apply andb_true_iff in Ht as [Hc Ht].
  cbn [occurs prefix]. destruct (ascii_dec a c) as [->|_].
  - rewrite Hc in Ha. discriminate.
  - rewrite IH by exact Ht. reflexivity.
Qed.

Lemma str_replace_num old new t :
  all_chars num_char t = true -> old <> EmptyString ->
  (match old with String a _ => num_char a | EmptyString => true end) = false ->
  str_replace t old new = t.
Proof.
  intros Ht Hne Ha. destruct old as [|a o]; [contradiction|].
  apply replace_fuel_no_occurrence, occurs_absent_head; assumption.
Qed.

Lemma clean_string_int z : clean_string (Some (CInt z)) = str_int z.
Proof.
  pose proof (str_int_chars z) as Hch.
  unfold clean_string, py_str.
  rewrite (str_replace_num PICT_MARKUP "" (str_int z)) by
    (exact Hch || discriminate || reflexivity).
  rewrite (str_replace_num "[" "" (str_int z)) by
    (exact Hch || discriminate || reflexivity).
  apply str_replace_num; [exact Hch|discriminate|reflexivity].
Qed.




Lemma get_cell_value_safely_int (src : sheet) (r c z : Z) :
  valid_coord r c -> src r c = Some (CInt z) ->
  get_cell_value_safely src r c = str_int z.
Proof.
  intros Hv H. unfold get_cell_value_safely, ws_cell.
  rewrite (valid_coord_false r c Hv), H. apply clean_string_int.
Qed.

Lemma num_char_legal c : num_char c = true -> illegal_char c = false.
Proof.
  revert c. intros [b0 b1 b2 b3 b4 b5 b6 b7].
  destruct b0, b1, b2, b3, b4, b5, b6, b7; vm_compute;
    intro H; first [reflexivity | discriminate H].
Qed.

Lemma has_illegal_num s : all_chars num_char s = true -> has_illegal s = false.
Proof.
  induction s as [|c s IH]; intros H; [reflexivity|].
  cbn [all_chars] in H. apply andb_true_iff in H as [Hc Hs].
  cbn [has_illegal]. rewrite num_char_legal, IH by assumption. reflexivity.
Qed.

Lemma take_all n s : (String.length s <= n)%nat -> take n s = s.
Proof.
  revert n. induction s as [|c s IH]; intros n Hn; [destruct n; reflexivity|].
  destruct n as [|n]; [cbn [String.length] in Hn; lia|].
  cbn [take]. rewrite IH by (cbn [String.length] in Hn; lia). reflexivity.
Qed.

Lemma stored_str_int z :
  Z.of_nat (String.length (str_int z)) <= 32767 ->
  stored (OStr (str_int z)) = OStr (str_int z).
Proof.
  intros Hl. unfold stored, check_string.
  rewrite take_all by lia. rewrite has_illegal_num by apply str_int_chars.
  reflexivity.
Qed.

Lemma mappings_read_bounds name c off col :
  In (name, (c, FRead off col)) mappings -> 0 <= off <= 8 /\ 1 <= col.
Proof.
  intros Hin. unfold mappings in Hin.
  repeat (destruct Hin as [Hm|Hin];
          [first [discriminate Hm | inversion Hm; subst; lia] |]).
  destruct Hin.
Qed.

Lemma start_row_of_range s : 2 <= s <= 25 -> 1 <= start_row_of s <= 208.
Proof.
  intros Hs. unfold start_row_of.
  destruct (s >? 2) eqn:G; [apply Z.gtb_lt in G|]; lia.
Qed.

(** [_get_cell_value_safely] on an integer cell gives its decimal [str()]:
    the markup and the brackets never occur in it, and [int()] reads the
    integer back. *)
Theorem integer_cell_read_back (src : sheet) (r c z : Z) :
  valid_coord r c -> src r c = Some (CInt z) ->
  get_cell_value_safely src r c = str_int z /\
  py_int (get_cell_value_safely src r c) = Ok z.
Proof.
  intros Hv H. rewrite (get_cell_value_safely_int src r c z Hv H). split; [reflexivity|apply py_int_str_int].
Qed.

Lemma integer_cell_read_back_witness :
  valid_coord 3 5 /\
  get_cell_value_safely (fun r c => Some (CInt (-2048))) 3 5 = str_int (-2048) /\
  py_int (get_cell_value_safely (fun r c => Some (CInt (-2048))) 3 5) = Ok (-2048).
Proof.
  assert (Hv : valid_coord 3 5) by (unfold valid_coord; lia).
  split; [exact Hv|].
  apply (integer_cell_read_back (fun r c => Some (CInt (-2048))) 3 5 (-2048) Hv).
  reflexivity.
Defined.

(** An integer in a source cell that a mapping reads lands in the output
    sheet, at the sample's row and the mapping's column, as its decimal
    [str()], as long as that string fits openpyxl's 32767-character limit. *)
Theorem integer_cells_copied (src : sheet) (s : Z) (name : string) (c off col z : Z) :
  2 <= s <= 25 -> In (name, (c, FRead off col)) mappings ->
  src (start_row_of s + off) col = Some (CInt z) ->
  Z.of_nat (String.length (str_int z)) <= 32767 ->
  exists ws warnings log,
    process_worksheet src = Ok (ws, warnings, log) /\ ws s c = Some (OStr (str_int z)).
Proof.
  intros Hs Hin Hsrc Hl.
  destruct (process_worksheet_shape src) as [ws [w [log [E [_ [_ [_ [_ Hm]]]]]]]].
  exists ws, w, log. split; [exact E|].
  rewrite (Hm s name c (FRead off col) Hs Hin). cbn [eval_value_func].
  destruct (mappings_read_bounds name c off col Hin) as [Hoff Hcol].
  pose proof (start_row_of_range s Hs) as Hr.
  rewrite (get_cell_value_safely_int src (start_row_of s + off) col z)
    by (exact Hsrc || (unfold valid_coord; lia)).
  rewrite stored_str_int by exact Hl. reflexivity.
Qed.

Lemma integer_cells_copied_witness :
  (2 <= 3 <= 25 /\ In ("time"%string, (5, FRead 6 12)) mappings /\
   constant_int_sheet (-9070) (start_row_of 3 + 6) 12 = Some (CInt (-9070)) /\
   Z.of_nat (String.length (str_int (-9070))) <= 32767) /\
  (exists ws warnings log,
     process_worksheet (constant_int_sheet (-9070)) = Ok (ws, warnings, log) /\
     ws 3 5 = Some (OStr (str_int (-9070)))).
Proof.
  assert (H1 : 2 <= 3 <= 25) by lia.
  assert (H2 : In ("time"%string, (5, FRead 6 12)) mappings)
    by (unfold mappings; simpl; tauto).
  assert (H3 : (constant_int_sheet (-9070)) (start_row_of 3 + 6) 12
               = Some (CInt (-9070))) by reflexivity.
  assert (H4 : Z.of_nat (String.length (str_int (-9070))) <= 32767)
    by (vm_compute; discriminate).
  split; [repeat split; assumption|].
  exact (integer_cells_copied (constant_int_sheet (-9070)) 3 "time"%string 5 6 12 (-9070)
           H1 H2 H3 H4).
Defined.
